(** * Verification of the pact verifier (verifier.go)

    A shallow embedding of [pactFileVerfier] and of its entry points
    [Verify] and [VerifyState].  The verifier talks to three collaborators
    whose code lives in other files of the project: the pact readers of
    package [io], the [PactFile] validation, and the [consumerValidator].
    They are kept abstract: the readers and the document validation are
    section variables, the validator is a record of methods stored in the
    verifier, as the Go interface value is.

    The Go code is stateful in three ways that matter here:
    - the collaborators perform I/O: they act on an abstract [World];
    - [getPactFile] returns a pointer to a document and [VerifyState]
      assigns to its [Interactions] field: documents live in a heap;
    - the order of calls matters: every call that leaves verifier.go is
      recorded in a trace. *)

From stdpp Require Import gmap strings list fin_maps.

Set Default Proof Using "Type".

(** ** Errors

    The four package-level error values of verifier.go, and the errors
    that the collaborators produce.  A Go [error] that may be [nil] is an
    [option error]. *)

Inductive error : Type :=
| errNoFilteredInteractionsFound
| errEmptyProvider
| errEmptyConsumer
| errVerficationFailed
| errCollaborator (msg : string).

#[global] Instance error_eq_dec : EqDecision error.
Proof. solve_decision. Defined.

(** [PactUriConfig]: the credentials used by the web reader. *)
Record PactUriConfig : Type := mkPactUriConfig {
  Username : string;
  Password : string
}.

(** The two implementations of [io.PactReader], as built by
    [io.NewPactWebReader] and [io.NewPactFileReader]. *)
Inductive PactReader : Type :=
| NewPactWebReader (uri username password : string)
| NewPactFileReader (path : string).

(** Addresses of pact documents in the heap. *)
Definition loc : Type := nat.

Section Verifier.

(** The outside world (file system, network, provider under test), the
    payload types of an interaction and the HTTP handle of a provider. *)
Context {World Request Response Client Url : Type}.

(** ** Data model *)

(** [consumer.Interaction]: verifier.go reads [Description] and [State];
    the expected request and response are the other two parts the
    specification lists. *)
Record Interaction : Type := mkInteraction {
  Description : string;
  State : string;
  ExpectedRequest : Request;
  ExpectedResponse : Response
}.

(** [io.PactFile]: verifier.go reads and assigns [Interactions]; the two
    names are the other parts the specification lists. *)
Record PactFile : Type := mkPactFile {
  Consumer : string;
  Provider : string;
  Interactions : list Interaction
}.

Definition setInteractions (xs : list Interaction) (d : PactFile) : PactFile :=
  {| Consumer := Consumer d; Provider := Provider d; Interactions := xs |}.

(** [type Action func() error]: a callback acting on the world. *)
Definition Action : Type := World -> option error * World.

Record stateAction : Type := mkStateAction {
  setup : Action;
  teardown : Action
}.

(** The [consumerValidator] interface, as verifier.go uses it. *)
Record consumerValidator : Type := mkConsumerValidator {
  CanValidate : World -> option error * World;
  ProviderService : Client -> Url -> World -> World;
  Validate : PactFile -> gmap string stateAction -> World ->
             (bool * option error) * World
}.

(** [pactFileVerfier].  [pactUriConfig] is a pointer that stays [nil]
    until [PactUri] is called.  The [config] field only carries the
    logger handed to the validator's constructor and is left out. *)
Record pactFileVerfier : Type := mkPactFileVerfier {
  stateActions : gmap string stateAction;
  provider : string;
  consumer : string;
  pactUri : string;
  pactUriConfig : option PactUriConfig;
  validator : consumerValidator
}.

(** ** The collaborators of package [io] *)

Variable IsWebUri : string -> bool.
Variable Read : PactReader -> World -> (PactFile + error) * World.
Variable PactFile_Validate : PactFile -> option error.
Variable DefaultPactUriConfig : PactUriConfig.

(** ** Events, run state and the monad of a run *)

Inductive Event : Type :=
| EvCanValidate
| EvRead (r : PactReader)
| EvPactFileValidate (f : loc)
| EvValidate (f : loc) (doc : PactFile) (actions : gmap string stateAction).

Record RunState : Type := mkRunState {
  world : World;
  heap : list PactFile;
  trace : list Event
}.

(** A computation either panics ([None], a nil dereference) or returns a
    value and the next state. *)
Definition M (A : Type) : Type := RunState -> option (A * RunState).

Definition ret {A} (a : A) : M A := fun s => Some (a, s).

Definition bind {A B} (m : M A) (k : A -> M B) : M B :=
  fun s => match m s with
           | Some (a, s') => k a s'
           | None => None
           end.

Definition panic {A} : M A := fun _ => None.

Definition emit (e : Event) : M unit :=
  fun s => Some (tt, mkRunState (world s) (heap s) (trace s ++ [e])).

Definition io {A} (f : World -> A * World) : M A :=
  fun s => let '(a, w) := f (world s) in
           Some (a, mkRunState w (heap s) (trace s)).

Definition alloc (d : PactFile) : M loc :=
  fun s => Some (length (heap s),
                 mkRunState (world s) (heap s ++ [d]) (trace s)).

Definition load (f : loc) : M PactFile :=
  fun s => match heap s !! f with
           | Some d => Some (d, s)
           | None => None
           end.

Definition store (f : loc) (d : PactFile) : M unit :=
  fun s => match heap s !! f with
           | Some _ => Some (tt, mkRunState (world s) (<[f := d]> (heap s)) (trace s))
           | None => None
           end.

Notation "'do' x <- m ; k" := (bind m (fun x => k))
  (at level 10, x pattern, m at level 100, k at level 200).
Notation "m ;; k" := (bind m (fun _ => k))
  (at level 100, k at level 200, right associativity).

(** Calls that leave verifier.go. *)

Definition callCanValidate (vd : consumerValidator) : M (option error) :=
  emit EvCanValidate ;; io (CanValidate vd).

(** [r.Read()]: the reader hands back a pointer to the document it
    parsed, or an error. *)
Definition callRead (r : PactReader) : M (loc + error) :=
  emit (EvRead r) ;;
  do res <- io (Read r) ;
  match res with
  | inl d => do f <- alloc d ; ret (inl f)
  | inr err => ret (inr err)
  end.

(** [f.Validate()]. *)
Definition callPactFileValidate (f : loc) : M (option error) :=
  emit (EvPactFileValidate f) ;;
  do d <- load f ;
  ret (PactFile_Validate d).

(** [v.validator.Validate(f, v.stateActions)]: the validator is handed
    the pointer, so it sees the document as the heap holds it now. *)
Definition callValidate (vd : consumerValidator) (f : loc)
    (actions : gmap string stateAction) : M (bool * option error) :=
  do d <- load f ;
  emit (EvValidate f d actions) ;;
  io (Validate vd d actions).

(** ** The builder methods *)

Definition NewPactFileVerifier (vd : consumerValidator) : pactFileVerfier :=
  {| stateActions := ∅; provider := ""; consumer := ""; pactUri := "";
     pactUriConfig := None; validator := vd |}.

Definition ServiceProvider (v : pactFileVerfier) (providerName : string)
    (c : Client) (u : Url) (w : World) : pactFileVerfier * World :=
  ({| stateActions := stateActions v; provider := providerName;
      consumer := consumer v; pactUri := pactUri v;
      pactUriConfig := pactUriConfig v; validator := validator v |},
   ProviderService (validator v) c u w).

Definition ProviderState (v : pactFileVerfier) (state : string)
    (setup teardown : Action) : pactFileVerfier :=
  if decide (state ≠ "") then
    {| stateActions := <[state := mkStateAction setup teardown]> (stateActions v);
       provider := provider v; consumer := consumer v; pactUri := pactUri v;
       pactUriConfig := pactUriConfig v; validator := validator v |}
  else v.

Definition HonoursPactWith (v : pactFileVerfier) (consumerName : string)
    : pactFileVerfier :=
  {| stateActions := stateActions v; provider := provider v;
     consumer := consumerName; pactUri := pactUri v;
     pactUriConfig := pactUriConfig v; validator := validator v |}.

Definition PactUri (v : pactFileVerfier) (uri : string)
    (config : option PactUriConfig) : pactFileVerfier :=
  let config := match config with
                | None => DefaultPactUriConfig
                | Some c => c
                end in
  {| stateActions := stateActions v; provider := provider v;
     consumer := consumer v; pactUri := uri;
     pactUriConfig := Some config; validator := validator v |}.

(** ** verifyInternalState and getPactFile *)

Definition verifyInternalState (v : pactFileVerfier) : M (option error) :=
  if decide (consumer v = "") then ret (Some errEmptyConsumer)
  else if decide (provider v = "") then ret (Some errEmptyProvider)
  else callCanValidate (validator v).

(** The reader chosen for the configured URI.  Reading the credentials
    dereferences [v.pactUriConfig]. *)
Definition chooseReader (v : pactFileVerfier) : M PactReader :=
  if IsWebUri (pactUri v) then
    match pactUriConfig v with
    | Some cfg => ret (NewPactWebReader (pactUri v) (Username cfg) (Password cfg))
    | None => panic
    end
  else ret (NewPactFileReader (pactUri v)).

Definition getPactFile (v : pactFileVerfier) : M (loc + error) :=
  do r <- chooseReader v ;
  do res <- callRead r ;
  match res with
  | inr err => ret (inr err)
  | inl f =>
      do e <- callPactFileValidate f ;
      match e with
      | Some err => ret (inr err)
      | None => ret (inl f)
      end
  end.

(** ** The two filter loops of VerifyState

    [var filteredInteractions []*consumer.Interaction] followed by a
    [range] loop that appends the matching values. *)

Definition filterByDescription (description : string)
    (interactions : list Interaction) : list Interaction :=
  fold_left
    (fun filteredInteractions val =>
       if decide (Description val = description)
       then filteredInteractions ++ [val]
       else filteredInteractions)
    interactions [].

Definition filterByState (state : string)
    (interactions : list Interaction) : list Interaction :=
  fold_left
    (fun filteredInteractions val =>
       if decide (State val = state)
       then filteredInteractions ++ [val]
       else filteredInteractions)
    interactions [].

(** Lines 104-124: each block runs only for a non-empty filter and ends
    with the assignment [f.Interactions = filteredInteractions]. *)
Definition filterDescriptionBlock (f : loc) (description : string) : M unit :=
  if decide (description ≠ "") then
    do d <- load f ;
    store f (setInteractions (filterByDescription description (Interactions d)) d)
  else ret tt.

Definition filterStateBlock (f : loc) (state : string) : M unit :=
  if decide (state ≠ "") then
    do d <- load f ;
    store f (setInteractions (filterByState state (Interactions d)) d)
  else ret tt.

Definition selectInteractions (f : loc) (description state : string) : M unit :=
  filterDescriptionBlock f description ;;
  filterStateBlock f state.

(** ** VerifyState and Verify *)

Definition VerifyState (v : pactFileVerfier) (description state : string)
    : M (option error) :=
  do e <- verifyInternalState v ;
  match e with
  | Some err => ret (Some err)
  | None =>
      do r <- getPactFile v ;
      match r with
      | inr err => ret (Some err)
      | inl f =>
          selectInteractions f description state ;;
          do d <- load f ;
          if bool_decide (description ≠ "" ∨ state ≠ "")
             && bool_decide (length (Interactions d) = 0)
          then ret (Some errNoFilteredInteractionsFound)
          else
            do res <- callValidate (validator v) f (stateActions v) ;
            match res with
            | (_, Some err) => ret (Some err)
            | (false, None) => ret (Some errVerficationFailed)
            | (true, None) => ret None
            end
      end
  end.

Definition Verify (v : pactFileVerfier) : M (option error) :=
  VerifyState v "" "".

(** ** Derived notions used in the statements *)

(** An interaction is selected when it passes every non-empty filter. *)
Definition selected (description state : string) (i : Interaction) : Prop :=
  (description = "" ∨ Description i = description) ∧
  (state = "" ∨ State i = state).

#[global] Instance selected_dec description state i :
  Decision (selected description state i).
Proof. unfold selected. apply _. Defined.

(** The pure content of lines 104-124. *)
Definition keptInteractions (description state : string)
    (xs : list Interaction) : list Interaction :=
  let xs := if decide (description ≠ "")
            then filterByDescription description xs else xs in
  if decide (state ≠ "") then filterByState state xs else xs.

Definition withHeap (s : RunState) (h : list PactFile) : RunState :=
  mkRunState (world s) h (trace s).

Definition afterCanValidate (s : RunState) (w : World) : RunState :=
  mkRunState w (heap s) (trace s ++ [EvCanValidate]).


(** The reader [getPactFile] builds, when it can. *)
Definition readerOf (v : pactFileVerfier) : option PactReader :=
  if IsWebUri (pactUri v) then
    cfg ← pactUriConfig v;
    Some (NewPactWebReader (pactUri v) (Username cfg) (Password cfg))
  else Some (NewPactFileReader (pactUri v)).

(** The state after a read that produced document [d]. *)
Definition afterRead (s : RunState) (r : PactReader) (w : World)
    (d : PactFile) : RunState :=
  mkRunState w (heap s ++ [d])
             (trace s ++ [EvRead r; EvPactFileValidate (length (heap s))]).

Definition afterFailedRead (s : RunState) (r : PactReader) (w : World)
    : RunState :=
  mkRunState w (heap s) (trace s ++ [EvRead r]).

(** Lines 130-136: what VerifyState makes of the validator's answer. *)
Definition resultOfValidate (res : bool * option error) : option error :=
  match res with
  | (_, Some err) => Some err
  | (false, None) => Some errVerficationFailed
  | (true, None) => None
  end.

Definition afterValidate (s : RunState) (f : loc) (d : PactFile)
    (actions : gmap string stateAction) (w : World) : RunState :=
  mkRunState w (heap s) (trace s ++ [EvValidate f d actions]).


Definition isFetch (e : Event) : bool :=
  match e with EvRead _ | EvPactFileValidate _ => true | _ => false end.

Definition isValidate (e : Event) : bool :=
  match e with EvValidate _ _ _ => true | _ => false end.

Definition countCalls (p : Event -> bool) (tr : list Event) : nat :=
  length (List.filter p tr).


(** The words of the specification for [Verify]: a full run over all the
    interactions of the document, with no filter step at all.  It is
    compared with the source's [Verify] below. *)
Definition fullRun (v : pactFileVerfier) : M (option error) :=
  do e <- verifyInternalState v ;
  match e with
  | Some err => ret (Some err)
  | None =>
      do r <- getPactFile v ;
      match r with
      | inr err => ret (Some err)
      | inl f =>
          do res <- callValidate (validator v) f (stateActions v) ;
          ret (resultOfValidate res)
      end
  end.

(** ** The per-interaction loop of the validator

    The validator is defined in another file of the package; its loop is
    written down here from the specification (sections 4.3 to 4.6). *)

(** Modelled from the spec: the ProviderInvoker, [invoke(expectedRequest)
    -> actualResponse | Error] (section 4.4). *)
Variable invoke : Request -> World -> (Response + error) * World.

(** Modelled from the spec: the ResponseMatcher, [match(expected, actual)],
    returning the list of mismatch descriptions (section 4.5). *)
Variable matchResponse : Response -> Response -> list string.










(** * Lemmas *)

(** ** What the selection computes *)

Lemma append_loop_filter (P : Interaction -> Prop) `{!∀ i, Decision (P i)}
    (xs acc : list Interaction) :
  fold_left (fun out val => if decide (P val) then out ++ [val] else out) xs acc
  = acc ++ filter P xs.
Proof.
  revert acc. induction xs as [|x xs IH]; intros acc; simpl.
  - by rewrite app_nil_r.
  - rewrite IH, filter_cons. destruct (decide (P x)); [|done].
    by rewrite <- app_assoc.
Qed.

Lemma filterByDescription_filter description xs :
  filterByDescription description xs
  = filter (fun i => Description i = description) xs.
Proof.
  unfold filterByDescription.
  exact (append_loop_filter (fun i => Description i = description) xs []).
Qed.

Lemma filterByState_filter state xs :
  filterByState state xs = filter (fun i => State i = state) xs.
Proof.
  unfold filterByState.
  exact (append_loop_filter (fun i => State i = state) xs []).
Qed.

Lemma filter_all (P : Interaction -> Prop) `{!∀ i, Decision (P i)}
    (xs : list Interaction) :
  (∀ i, P i) -> filter P xs = xs.
Proof.
  intros HP. induction xs as [|x xs IH]; [done|].
  by rewrite filter_cons_True, IH.
Qed.

Lemma setInteractions_same d : setInteractions (Interactions d) d = d.
Proof. by destruct d. Qed.

Lemma setInteractions_twice xs ys d :
  setInteractions xs (setInteractions ys d) = setInteractions xs d.
Proof. done. Qed.

Lemma keptInteractions_filter description state xs :
  keptInteractions description state xs
  = filter (selected description state) xs.
Proof.
  unfold keptInteractions.
  rewrite filterByDescription_filter.
  destruct (decide (description ≠ "")) as [Hd|Hd],
           (decide (state ≠ "")) as [Hs|Hs];
    rewrite ?filterByState_filter, ?list_filter_filter;
    try apply dec_stable in Hd; try apply dec_stable in Hs.
  - apply list_filter_iff. intros i. unfold selected. split.
    + intros [? ?]. split; by right.
    + intros [[?|?] [?|?]]; done.
  - apply list_filter_iff. intros i. unfold selected. split.
    + intros ?. split; [by right|by left].
    + intros [[?|?] _]; done.
  - apply list_filter_iff. intros i. unfold selected. split.
    + intros ?. split; [by left|by right].
    + intros [_ [?|?]]; done.
  - symmetry. apply filter_all. intros i. split; by left.
Qed.

(** ** Running the selection on the heap *)

Lemma withHeap_same s : withHeap s (heap s) = s.
Proof. by destruct s. Qed.

Lemma store_run f d d' s :
  heap s !! f = Some d -> store f d' s = Some (tt, withHeap s (<[f := d']> (heap s))).
Proof. intros Hf. unfold store. by rewrite Hf. Qed.

Lemma load_run f d s : heap s !! f = Some d -> load f s = Some (d, s).
Proof. intros Hf. unfold load. by rewrite Hf. Qed.

Lemma filterDescriptionBlock_run f description s d :
  heap s !! f = Some d ->
  filterDescriptionBlock f description s
  = Some (tt, withHeap s (<[f := setInteractions
            (if decide (description ≠ "")
             then filterByDescription description (Interactions d)
             else Interactions d) d]> (heap s))).
Proof.
  intros Hf. unfold filterDescriptionBlock.
  destruct (decide (description ≠ "")).
  - unfold bind. rewrite (load_run f d s Hf). by apply store_run with d.
  - rewrite setInteractions_same, list_insert_id by done.
    by rewrite withHeap_same.
Qed.

Lemma filterStateBlock_run f state s d :
  heap s !! f = Some d ->
  filterStateBlock f state s
  = Some (tt, withHeap s (<[f := setInteractions
            (if decide (state ≠ "")
             then filterByState state (Interactions d)
             else Interactions d) d]> (heap s))).
Proof.
  intros Hf. unfold filterStateBlock.
  destruct (decide (state ≠ "")).
  - unfold bind. rewrite (load_run f d s Hf). by apply store_run with d.
  - rewrite setInteractions_same, list_insert_id by done.
    by rewrite withHeap_same.
Qed.

Lemma selectInteractions_run f description state s d :
  heap s !! f = Some d ->
  selectInteractions f description state s
  = Some (tt, withHeap s (<[f := setInteractions
            (keptInteractions description state (Interactions d)) d]> (heap s))).
Proof.
  intros Hf. unfold selectInteractions, bind.
  rewrite (filterDescriptionBlock_run f description s d Hf).
  set (d1 := setInteractions _ d).
  assert (Hf1 : heap (withHeap s (<[f := d1]> (heap s))) !! f = Some d1).
  { simpl. apply list_lookup_insert_eq. by eapply lookup_lt_Some. }
  rewrite (filterStateBlock_run f state _ d1 Hf1). simpl.
  unfold withHeap. simpl. rewrite list_insert_insert_eq.
  by unfold d1, keptInteractions.
Qed.

(** ** Running verifyInternalState and getPactFile *)

Lemma verifyInternalState_run v s :
  verifyInternalState v s =
  if decide (consumer v = "") then Some (Some errEmptyConsumer, s)
  else if decide (provider v = "") then Some (Some errEmptyProvider, s)
  else Some ((CanValidate (validator v) (world s)).1,
             afterCanValidate s (CanValidate (validator v) (world s)).2).
Proof.
  unfold verifyInternalState.
  destruct (decide (consumer v = "")); [done|].
  destruct (decide (provider v = "")); [done|].
  unfold callCanValidate, bind, emit, io, afterCanValidate. simpl.
  by destruct (CanValidate (validator v) (world s)).
Qed.

Lemma chooseReader_run v s :
  chooseReader v s = r ← readerOf v; Some (r, s).
Proof.
  unfold chooseReader, readerOf.
  destruct (IsWebUri (pactUri v)); [|done].
  by destruct (pactUriConfig v).
Qed.


Lemma getPactFile_run v s r :
  readerOf v = Some r ->
  getPactFile v s =
  match Read r (world s) with
  | (inr err, w) => Some (inr err, afterFailedRead s r w)
  | (inl d, w) =>
      match PactFile_Validate d with
      | Some err => Some (inr err, afterRead s r w d)
      | None => Some (inl (length (heap s)), afterRead s r w d)
      end
  end.
Proof.
  intros Hr. unfold getPactFile, bind at 1.
  rewrite chooseReader_run, Hr. simpl.
  unfold bind at 1. unfold callRead, bind at 1. unfold emit at 1.
  unfold bind at 1. unfold io at 1. simpl.
  destruct (Read r (world s)) as [[d|err] w]; simpl.
  - unfold bind at 1. unfold alloc. simpl.
    unfold callPactFileValidate, bind, emit, load, ret. simpl.
    rewrite list_lookup_middle by done. unfold afterRead.
    rewrite <- app_assoc. simpl.
    by destruct (PactFile_Validate d).
  - done.
Qed.

Lemma getPactFile_panics v s : readerOf v = None -> getPactFile v s = None.
Proof.
  intros Hr. unfold getPactFile, bind. by rewrite chooseReader_run, Hr.
Qed.

Lemma verifyInternalState_ok_inv v s0 s1 :
  verifyInternalState v s0 = Some (None, s1) ->
  consumer v ≠ "" ∧ provider v ≠ "" ∧
  ∃ w, CanValidate (validator v) (world s0) = (None, w) ∧
       s1 = afterCanValidate s0 w.
Proof.
  rewrite verifyInternalState_run.
  destruct (decide (consumer v = "")); [done|].
  destruct (decide (provider v = "")); [done|].
  destruct (CanValidate (validator v) (world s0)) as [e w] eqn:Hcv. simpl.
  intros [= -> <-]. eauto.
Qed.

Lemma getPactFile_inl_inv v s1 s2 f :
  getPactFile v s1 = Some (inl f, s2) ->
  ∃ r d w, readerOf v = Some r ∧ Read r (world s1) = (inl d, w) ∧
           PactFile_Validate d = None ∧ f = length (heap s1) ∧
           s2 = afterRead s1 r w d ∧ heap s2 !! f = Some d.
Proof.
  destruct (readerOf v) as [r|] eqn:Hr.
  - rewrite (getPactFile_run v s1 r Hr).
    destruct (Read r (world s1)) as [[d|err] w] eqn:Hread; [|done].
    destruct (PactFile_Validate d) eqn:Hval; [done|].
    intros [= <- <-]. exists r, d, w. repeat split; try done.
    simpl. by apply list_lookup_middle.
  - by rewrite getPactFile_panics.
Qed.

Lemma getPactFile_inr_inv v s1 s2 err :
  getPactFile v s1 = Some (inr err, s2) ->
  ∃ r, readerOf v = Some r ∧
    ((∃ w, Read r (world s1) = (inr err, w) ∧ s2 = afterFailedRead s1 r w) ∨
     (∃ d w, Read r (world s1) = (inl d, w) ∧
             PactFile_Validate d = Some err ∧ s2 = afterRead s1 r w d)).
Proof.
  destruct (readerOf v) as [r|] eqn:Hr.
  - rewrite (getPactFile_run v s1 r Hr). intros Hg. exists r. split; [done|].
    destruct (Read r (world s1)) as [[d|err'] w] eqn:Hread.
    + destruct (PactFile_Validate d) eqn:Hval; [|done].
      injection Hg as -> <-. right. by exists d, w.
    + injection Hg as -> <-. left. by exists w.
  - by rewrite getPactFile_panics.
Qed.

(** ** Running VerifyState once the document is fetched *)

Lemma callValidate_run vd f actions s d :
  heap s !! f = Some d ->
  callValidate vd f actions s
  = Some ((Validate vd d actions (world s)).1,
          afterValidate s f d actions (Validate vd d actions (world s)).2).
Proof.
  intros Hf. unfold callValidate, bind. rewrite (load_run f d s Hf).
  unfold emit, io, afterValidate. simpl.
  by destruct (Validate vd d actions (world s)).
Qed.

Lemma VerifyState_fetched v description state s0 s1 s2 f d :
  verifyInternalState v s0 = Some (None, s1) ->
  getPactFile v s1 = Some (inl f, s2) ->
  heap s2 !! f = Some d ->
  let d' := setInteractions
              (keptInteractions description state (Interactions d)) d in
  let s3 := withHeap s2 (<[f := d']> (heap s2)) in
  VerifyState v description state s0 =
  if bool_decide (description ≠ "" ∨ state ≠ "")
     && bool_decide (length (Interactions d') = 0)
  then Some (Some errNoFilteredInteractionsFound, s3)
  else Some (resultOfValidate
               (Validate (validator v) d' (stateActions v) (world s2)).1,
             afterValidate s3 f d' (stateActions v)
               (Validate (validator v) d' (stateActions v) (world s2)).2).
Proof.
  intros Hv Hg Hf d' s3. unfold VerifyState, bind at 1. rewrite Hv.
  unfold bind at 1. rewrite Hg.
  unfold bind at 1.
  rewrite (selectInteractions_run f description state s2 d Hf).
  fold d'. fold s3.
  assert (Hf3 : heap s3 !! f = Some d').
  { simpl. apply list_lookup_insert_eq. by eapply lookup_lt_Some. }
  unfold bind at 1. rewrite (load_run f d' s3 Hf3).
  destruct (bool_decide (description ≠ "" ∨ state ≠ "")
            && bool_decide (length (Interactions d') = 0)); [done|].
  unfold bind. rewrite (callValidate_run _ f _ s3 d' Hf3). simpl.
  by destruct (Validate (validator v) d' (stateActions v) (world s2))
    as [[[] []] w].
Qed.

Lemma VerifyState_precheck_fails v description state s0 s1 err :
  verifyInternalState v s0 = Some (Some err, s1) ->
  VerifyState v description state s0 = Some (Some err, s1).
Proof. intros Hv. unfold VerifyState, bind. by rewrite Hv. Qed.

Lemma VerifyState_fetch_fails v description state s0 s1 s2 err :
  verifyInternalState v s0 = Some (None, s1) ->
  getPactFile v s1 = Some (inr err, s2) ->
  VerifyState v description state s0 = Some (Some err, s2).
Proof.
  intros Hv Hg. unfold VerifyState, bind at 1. rewrite Hv.
  unfold bind. by rewrite Hg.
Qed.

(** ** Counting calls in a trace *)

Lemma countCalls_app p tr1 tr2 :
  countCalls p (tr1 ++ tr2) = countCalls p tr1 + countCalls p tr2.
Proof. unfold countCalls. by rewrite List.filter_app, length_app. Qed.



(** ** The validator's loop *)




(** * The claims *)

(** C1: the selection performed by VerifyState (lines 104-124) leaves in
    the document exactly the interactions whose Description equals the
    description filter (when it is non-empty) and whose State equals the
    state filter (when it is non-empty); an empty filter imposes nothing,
    and the survivors keep their document order. *)
Theorem selection_exact f description state s d :
  heap s !! f = Some d ->
  let kept := filter (selected description state) (Interactions d) in
  selectInteractions f description state s
  = Some (tt, withHeap s (<[f := setInteractions kept d]> (heap s)))
  ∧ (∀ i, i ∈ kept ↔ i ∈ Interactions d ∧ selected description state i)
  ∧ kept `sublist_of` Interactions d.
Proof.
  intros Hf kept. split; [|split].
  - rewrite (selectInteractions_run f description state s d Hf).
    by rewrite keptInteractions_filter.
  - intros i. unfold kept. rewrite list_elem_of_filter.
    split; intros [? ?]; done.
  - apply sublist_filter.
Qed.

(** C8: ProviderState with an empty label leaves the verifier, and so its
    map of state actions, unchanged; with a non-empty label the map
    afterwards sends the label to the given pair, whatever was registered
    before, and every other label to what it was sent to before. *)
Theorem ProviderState_registers v state su td :
  ProviderState v "" su td = v
  ∧ (state ≠ "" ->
     stateActions (ProviderState v state su td) !! state
       = Some (mkStateAction su td)
     ∧ (∀ label, label ≠ state ->
          stateActions (ProviderState v state su td) !! label
          = stateActions v !! label)
     ∧ stateActions (ProviderState v state su td)
       = <[state := mkStateAction su td]> (stateActions v)).
Proof.
  split.
  { unfold ProviderState. by destruct (decide ("" ≠ "")). }
  intros Hne. unfold ProviderState.
  destruct (decide (state ≠ "")); [|done]. simpl.
  split; [apply lookup_insert_eq|]. split; [|done].
  intros label Hl. by apply lookup_insert_ne.
Qed.

(** C10: Verify returns what VerifyState returns for two empty filters,
    whatever the outcome, and that is a full run with no filter step. *)
Theorem Verify_is_unfiltered_run v s :
  Verify v s = VerifyState v "" "" s ∧ Verify v s = fullRun v s.
Proof.
  split; [done|].
  unfold Verify, VerifyState, fullRun, bind.
  destruct (verifyInternalState v s) as [[[e|] s1]|]; try done.
  destruct (getPactFile v s1) as [[[f|err] s2]|]; try done.
  change (selectInteractions f "" "" s2) with (Some (tt, s2)).
  destruct (heap s2 !! f) as [d|] eqn:Hf.
  - rewrite (load_run f d s2 Hf). simpl.
    rewrite (callValidate_run _ f _ s2 d Hf).
    by destruct (Validate (validator v) d (stateActions v) (world s2))
      as [[[] []] w].
  - unfold callValidate, bind, load. by rewrite Hf.
Qed.




(** C5: when getPactFile fails, because the read failed or because the
    document read did not validate, VerifyState returns that very error
    and stops in the state getPactFile left: the document, if one was
    read, is still as the reader produced it, and the validator was not
    called. *)
Theorem fetch_failure_aborts v description state s0 s1 r :
  verifyInternalState v s0 = Some (None, s1) ->
  readerOf v = Some r ->
  (∀ err w, Read r (world s1) = (inr err, w) ->
     getPactFile v s1 = Some (inr err, afterFailedRead s1 r w))
  ∧ (∀ d err w, Read r (world s1) = (inl d, w) ->
       PactFile_Validate d = Some err ->
       getPactFile v s1 = Some (inr err, afterRead s1 r w d))
  ∧ (∀ err s2, getPactFile v s1 = Some (inr err, s2) ->
       VerifyState v description state s0 = Some (Some err, s2)
       ∧ countCalls isValidate (trace s2) = countCalls isValidate (trace s0)
       ∧ (heap s2 = heap s1
          ∨ ∃ d w, Read r (world s1) = (inl d, w) ∧ heap s2 = heap s1 ++ [d])).
Proof.
  intros Hv Hr. split; [|split].
  - intros err w Hread. by rewrite (getPactFile_run v s1 r Hr), Hread.
  - intros d err w Hread Hval.
    by rewrite (getPactFile_run v s1 r Hr), Hread, Hval.
  - intros err s2 Hg.
    split; [by eapply VerifyState_fetch_fails|].
    destruct (verifyInternalState_ok_inv v s0 s1 Hv) as (_ & _ & w & _ & Hs1).
    destruct (getPactFile_inr_inv v s1 s2 err Hg) as (r' & Hr' & Hcase).
    assert (r' = r) as -> by congruence.
    destruct Hcase as [(w1 & Hread & ->)|(d & w1 & Hread & Hval & ->)];
      subst s1; simpl.
    + split; [|by left].
      by rewrite <- app_assoc, countCalls_app, Nat.add_0_r.
    + split; [|right; by exists d, w1].
      by rewrite <- app_assoc, countCalls_app, Nat.add_0_r.
Qed.

(** C6: for a verifier configured with PactUri, getPactFile builds the web
    reader, with the configured user name and password, when the URI is a
    web URI, and the file reader for that path otherwise; a document is
    returned only after its validation was called and found no error. *)
Theorem reader_by_uri_shape v uri config s :
  let v' := PactUri v uri config in
  let cfg := default DefaultPactUriConfig config in
  let r := if IsWebUri uri
           then NewPactWebReader uri (Username cfg) (Password cfg)
           else NewPactFileReader uri in
  chooseReader v' s = Some (r, s)
  ∧ getPactFile v' s =
    match Read r (world s) with
    | (inr err, w) => Some (inr err, afterFailedRead s r w)
    | (inl d, w) =>
        match PactFile_Validate d with
        | Some err => Some (inr err, afterRead s r w d)
        | None => Some (inl (length (heap s)), afterRead s r w d)
        end
    end
  ∧ (∀ f s', getPactFile v' s = Some (inl f, s') ->
       ∃ d w, Read r (world s) = (inl d, w)
              ∧ PactFile_Validate d = None
              ∧ heap s' !! f = Some d
              ∧ trace s' = trace s ++ [EvRead r; EvPactFileValidate f]).
Proof.
  intros v' cfg r.
  assert (Hr : readerOf v' = Some r).
  { unfold readerOf, v', r, cfg, PactUri. simpl.
    destruct (IsWebUri uri); [|done]. by destruct config. }
  split; [by rewrite chooseReader_run, Hr|].
  split; [by apply getPactFile_run|].
  intros f s' Hg.
  destruct (getPactFile_inl_inv v' s s' f Hg)
    as (r' & d & w & Hr' & Hread & Hval & -> & -> & Hf).
  assert (r' = r) as -> by congruence.
  by exists d, w.
Qed.

(** C9, as the code has it: the selection assigns the filtered sequence to
    the Interactions field of the fetched document itself.  After it the
    document holds exactly the selected interactions, its other fields and
    every other document are as before, and the document is left as it was
    when both filters are empty. *)
Theorem selection_overwrites_document f description state s d :
  heap s !! f = Some d ->
  ∃ s', selectInteractions f description state s = Some (tt, s')
    ∧ heap s' !! f
      = Some (setInteractions
                (filter (selected description state) (Interactions d)) d)
    ∧ (∀ g, g ≠ f -> heap s' !! g = heap s !! g)
    ∧ world s' = world s ∧ trace s' = trace s
    ∧ (description = "" -> state = "" -> s' = s).
Proof.
  intros Hf. eexists. split.
  { rewrite (selectInteractions_run f description state s d Hf).
    by rewrite keptInteractions_filter. }
  simpl. split.
  { apply list_lookup_insert_eq. by eapply lookup_lt_Some. }
  split; [intros g Hg; by apply list_lookup_insert_ne|].
  split; [done|]. split; [done|].
  intros -> ->.
  rewrite filter_all, setInteractions_same by (intros i; split; by left).
  rewrite list_insert_id by done. apply withHeap_same.
Qed.


(** * Further properties of the verifier *)

(** ** The builder methods *)




(** ** The two filters *)

(** X3: the two filter loops can be run in either order, running the
    selection a second time changes nothing, and a selection never holds
    more interactions than the document had. *)
Theorem filters_commute_and_idempotent description state xs :
  filterByState state (filterByDescription description xs)
  = filterByDescription description (filterByState state xs)
  ∧ keptInteractions description state (keptInteractions description state xs)
    = keptInteractions description state xs
  ∧ length (keptInteractions description state xs) ≤ length xs.
Proof.
  split; [|split].
  - rewrite !filterByDescription_filter, !filterByState_filter.
    rewrite !list_filter_filter. apply list_filter_iff.
    intros i. split; intros [? ?]; done.
  - rewrite !keptInteractions_filter, list_filter_filter.
    apply list_filter_iff. intros i. split; [by intros [? ?]|done].
  - rewrite keptInteractions_filter. apply length_filter.
Qed.

(** ** The shape of a run *)

(** What VerifyState does once document [d] was fetched at [f] in state
    [s2]: lines 104-136. *)
Definition afterFetch (v : pactFileVerfier) (description state : string)
    (s2 : RunState) (f : loc) (d : PactFile)
    : option (option error * RunState) :=
  let d' := setInteractions
              (filter (selected description state) (Interactions d)) d in
  let s3 := withHeap s2 (<[f := d']> (heap s2)) in
  if bool_decide (description ≠ "" ∨ state ≠ "")
     && bool_decide (Interactions d' = [])
  then Some (Some errNoFilteredInteractionsFound, s3)
  else Some (resultOfValidate
               (Validate (validator v) d' (stateActions v) (world s2)).1,
             afterValidate s3 f d' (stateActions v)
               (Validate (validator v) d' (stateActions v) (world s2)).2).

(** The ways of a run, one per exit of VerifyState. *)
Inductive runOf (v : pactFileVerfier) (description state : string)
    (s : RunState) : option (option error * RunState) -> Prop :=
| run_no_consumer :
    consumer v = "" ->
    runOf v description state s (Some (Some errEmptyConsumer, s))
| run_no_provider :
    consumer v ≠ "" -> provider v = "" ->
    runOf v description state s (Some (Some errEmptyProvider, s))
| run_cannot_validate err w :
    consumer v ≠ "" -> provider v ≠ "" ->
    CanValidate (validator v) (world s) = (Some err, w) ->
    runOf v description state s (Some (Some err, afterCanValidate s w))
| run_nil_config w :
    consumer v ≠ "" -> provider v ≠ "" ->
    CanValidate (validator v) (world s) = (None, w) ->
    IsWebUri (pactUri v) = true -> pactUriConfig v = None ->
    runOf v description state s None
| run_read_failed w r err w1 :
    consumer v ≠ "" -> provider v ≠ "" ->
    CanValidate (validator v) (world s) = (None, w) ->
    readerOf v = Some r ->
    Read r w = (inr err, w1) ->
    runOf v description state s
      (Some (Some err, afterFailedRead (afterCanValidate s w) r w1))
| run_invalid_document w r d w1 err :
    consumer v ≠ "" -> provider v ≠ "" ->
    CanValidate (validator v) (world s) = (None, w) ->
    readerOf v = Some r ->
    Read r w = (inl d, w1) ->
    PactFile_Validate d = Some err ->
    runOf v description state s
      (Some (Some err, afterRead (afterCanValidate s w) r w1 d))
| run_fetched w r d w1 :
    consumer v ≠ "" -> provider v ≠ "" ->
    CanValidate (validator v) (world s) = (None, w) ->
    readerOf v = Some r ->
    Read r w = (inl d, w1) ->
    PactFile_Validate d = None ->
    runOf v description state s
      (afterFetch v description state
         (afterRead (afterCanValidate s w) r w1 d) (length (heap s)) d).

Lemma readerOf_None v :
  readerOf v = None <-> IsWebUri (pactUri v) = true ∧ pactUriConfig v = None.
Proof.
  unfold readerOf. destruct (IsWebUri (pactUri v)).
  - destruct (pactUriConfig v); simpl; split; try done. by intros [_ ?].
  - split; [done|]. by intros [? _].
Qed.

Lemma VerifyState_runOf v description state s :
  runOf v description state s (VerifyState v description state s).
Proof.
  pose proof (verifyInternalState_run v s) as Hv.
  destruct (decide (consumer v = "")) as [Hc|Hc].
  { rewrite (VerifyState_precheck_fails _ _ _ _ _ _ Hv). by constructor. }
  destruct (decide (provider v = "")) as [Hp|Hp].
  { rewrite (VerifyState_precheck_fails _ _ _ _ _ _ Hv). by constructor. }
  destruct (CanValidate (validator v) (world s)) as [[err|] w] eqn:Hcv;
    simpl in Hv.
  { rewrite (VerifyState_precheck_fails _ _ _ _ _ _ Hv).
    by apply run_cannot_validate. }
  set (s1 := afterCanValidate s w) in *.
  destruct (readerOf v) as [r|] eqn:Hr.
  2:{ assert (VerifyState v description state s = None) as ->.
      { unfold VerifyState, bind at 1. rewrite Hv. unfold bind.
        by rewrite (getPactFile_panics v s1 Hr). }
      apply readerOf_None in Hr as [Hweb Hcfg].
      by eapply run_nil_config. }
  pose proof (getPactFile_run v s1 r Hr) as Hg. simpl in Hg.
  destruct (Read r w) as [[d|err] w1] eqn:Hread.
  2:{ rewrite (VerifyState_fetch_fails _ _ _ _ _ _ _ Hv Hg).
      by eapply run_read_failed. }
  destruct (PactFile_Validate d) as [err|] eqn:Hval.
  { rewrite (VerifyState_fetch_fails _ _ _ _ _ _ _ Hv Hg).
    by eapply run_invalid_document. }
  assert (Hf : heap (afterRead s1 r w1 d) !! length (heap s1) = Some d).
  { simpl. by apply list_lookup_middle. }
  rewrite (VerifyState_fetched v description state s _ _ _ d Hv Hg Hf).
  rewrite keptInteractions_filter.
  replace (bool_decide (length (Interactions (setInteractions
             (filter (selected description state) (Interactions d)) d)) = 0))
    with (bool_decide (Interactions (setInteractions
             (filter (selected description state) (Interactions d)) d) = [])).
  2:{ apply bool_decide_ext. symmetry. apply length_zero_iff_nil. }
  by apply (run_fetched v description state s w r d w1).
Qed.


(** X4: a run that reaches the validator, because no filter was given or
    because the filters select something, calls it once, with the fetched
    document holding exactly the selected interactions and with the
    verifier's state actions; the run ends in the world the validator
    left, and its result is read off the validator's answer alone. *)
Theorem validator_receives_selection v description state s0 s1 s2 f d :
  verifyInternalState v s0 = Some (None, s1) ->
  getPactFile v s1 = Some (inl f, s2) ->
  heap s2 !! f = Some d ->
  let kept := filter (selected description state) (Interactions d) in
  (description = "" ∧ state = "") ∨ kept ≠ [] ->
  let d' := setInteractions kept d in
  let answer := Validate (validator v) d' (stateActions v) (world s2) in
  ∃ s3,
    VerifyState v description state s0
    = Some (resultOfValidate answer.1, s3)
    ∧ trace s3 = trace s2 ++ [EvValidate f d' (stateActions v)]
    ∧ world s3 = answer.2
    ∧ heap s3 = <[f := d']> (heap s2).
Proof.
  intros Hv Hg Hf kept Hreach d' answer.
  pose proof (VerifyState_fetched v description state s0 s1 s2 f d Hv Hg Hf)
    as Hrun. simpl in Hrun. rewrite keptInteractions_filter in Hrun.
  fold kept in Hrun. fold d' in Hrun. fold answer in Hrun.
  destruct (bool_decide (description ≠ "" ∨ state ≠ "")
            && bool_decide (length kept = 0)) eqn:Hcheck.
  { exfalso. apply andb_true_iff in Hcheck as [H1 H2].
    apply bool_decide_eq_true in H1. apply bool_decide_eq_true in H2.
    apply length_zero_iff_nil in H2.
    destruct Hreach as [[-> ->]|Hkept]; [|done].
    destruct H1 as [H1|H1]; by apply H1. }
  eexists. split; [exact Hrun|]. done.
Qed.

(** X5: a run that succeeds went all the way: both names were set, CanValidate
    found nothing wrong, the document was read and validated, the filters,
    if any was given, selected at least one interaction, and the validator
    answered ok without an error on the selected document. *)
Theorem success_means_everything_passed v description state s s' :
  VerifyState v description state s = Some (None, s') ->
  consumer v ≠ "" ∧ provider v ≠ ""
  ∧ ∃ w r d w1 w2,
      CanValidate (validator v) (world s) = (None, w)
      ∧ readerOf v = Some r
      ∧ Read r w = (inl d, w1)
      ∧ PactFile_Validate d = None
      ∧ (description ≠ "" ∨ state ≠ "" ->
         filter (selected description state) (Interactions d) ≠ [])
      ∧ Validate (validator v)
          (setInteractions
             (filter (selected description state) (Interactions d)) d)
          (stateActions v) w1
        = ((true, None), w2)
      ∧ world s' = w2.
Proof.
  intros Hrun. pose proof (VerifyState_runOf v description state s) as Hof.
  rewrite Hrun in Hof.
  inversion Hof as [| | | | |
                    |w r d w1 Hc Hp Hcv Hr Hread Hval Hafter].
  split; [done|]. split; [done|].
  exists w, r, d, w1. unfold afterFetch in Hafter.
  simpl in Hafter.
  destruct (bool_decide (description ≠ "" ∨ state ≠ "")) eqn:Hfilter;
    simpl in Hafter.
  - destruct (bool_decide
                (filter (selected description state) (Interactions d) = []))
      eqn:Hnone; [done|].
    apply bool_decide_eq_false in Hnone.
    destruct (Validate _ _ _ w1) as [[[] [err|]] w2] eqn:Hanswer;
      simpl in Hafter; try done.
    injection Hafter as <-. by exists w2.
  - apply bool_decide_eq_false in Hfilter.
    destruct (Validate _ _ _ w1) as [[[] [err|]] w2] eqn:Hanswer;
      simpl in Hafter; try done.
    injection Hafter as <-. by exists w2.
Qed.






End Verifier.

(** * A concrete provider test

    A small instance of the collaborators, on which the statements above
    are exercised: the world is the log of the I/O performed so far. *)

Definition Log : Type := list string.

Definition demoIsWebUri (uri : string) : bool :=
  String.prefix "http://" uri || String.prefix "https://" uri.

Definition getUser : @Interaction string string :=
  mkInteraction "get user" "user exists" "GET /users/1" "200 alice".

Definition listUsers : @Interaction string string :=
  mkInteraction "list users" "" "GET /users" "200 alice,bob".

Definition demoPact : @PactFile string string :=
  mkPactFile "web" "users" [getUser; listUsers].

Definition demoRead (r : PactReader) (w : Log)
    : (@PactFile string string + error) * Log :=
  match r with
  | NewPactFileReader path =>
      if decide (path = "pacts/web-users.json")
      then (inl demoPact, w ++ ["read pacts/web-users.json"])
      else if decide (path = "pacts/anonymous.json")
      then (inl (mkPactFile "" "users" [listUsers]),
            w ++ ["read pacts/anonymous.json"])
      else (inr (errCollaborator "no such file"), w ++ ["read failed"])
  | NewPactWebReader uri _ _ =>
      (inr (errCollaborator "connection refused"), w ++ ["GET failed"])
  end.

Definition demoPactFileValidate (d : @PactFile string string) : option error :=
  if decide (Consumer d = "") then Some (errCollaborator "consumer missing")
  else None.

Definition demoConfig : PactUriConfig := mkPactUriConfig "" "".

(** A validator that accepts every document. *)
Definition acceptingValidator : @consumerValidator Log string string () () :=
  {| CanValidate := fun w => (None, w);
     ProviderService := fun _ _ w => w;
     Validate := fun _ _ w => ((true, None), w ++ ["validated"]) |}.


Definition configure (vd : @consumerValidator Log string string () ())
    (uri : string) : @pactFileVerfier Log string string () () :=
  HonoursPactWith
    (ServiceProvider
       (PactUri demoConfig (NewPactFileVerifier vd) uri None)
       "users" () () []).1
    "web".

Definition demoVerifier := configure acceptingValidator "pacts/web-users.json".

Definition start : @RunState Log string string := mkRunState [] [] [].

(** The state in which the document has just been fetched. *)
Definition checked : @RunState Log string string :=
  mkRunState [] [] [EvCanValidate].

Definition fetched : @RunState Log string string :=
  afterRead checked (NewPactFileReader "pacts/web-users.json")
    ["read pacts/web-users.json"] demoPact.


Definition seedUser : @stateAction Log :=
  mkStateAction (fun w => (None, w ++ ["insert alice"]))
                (fun w => (None, w ++ ["delete alice"])).



Definition webVerifier := configure acceptingValidator "https://broker/pacts/web-users".


(** ** The statements at the concrete test *)

Lemma selection_exact_witness :
  heap fetched !! 0 = Some demoPact
  ∧ selectInteractions 0 "get user" "" fetched
    = Some (tt, withHeap fetched [setInteractions [getUser] demoPact]).
Proof.
  split; [reflexivity|].
  exact (proj1 (selection_exact 0 "get user" "" fetched demoPact eq_refl)).
Defined.




Lemma fetch_failure_aborts_witness :
  VerifyState demoIsWebUri demoRead demoPactFileValidate
    webVerifier "" "" start
  = Some (Some (errCollaborator "connection refused"),
          afterFailedRead checked
            (NewPactWebReader "https://broker/pacts/web-users" "" "")
            ["GET failed"]).
Proof.
  apply (proj2 (proj2 (fetch_failure_aborts demoIsWebUri demoRead
                         demoPactFileValidate webVerifier "" "" start checked
                         (NewPactWebReader "https://broker/pacts/web-users" "" "")
                         eq_refl eq_refl))).
  reflexivity.
Defined.


Lemma ProviderState_registers_witness :
  stateActions (ProviderState (NewPactFileVerifier acceptingValidator)
                  "user exists" (setup seedUser) (teardown seedUser))
    !! "user exists"
  = Some seedUser.
Proof.
  apply (proj2 (ProviderState_registers
                  (NewPactFileVerifier acceptingValidator)
                  "user exists" (setup seedUser) (teardown seedUser))).
  discriminate.
Defined.

Lemma selection_overwrites_document_witness :
  ∃ s', selectInteractions 0 "get user" "" fetched = Some (tt, s')
    ∧ heap s' !! 0 = Some (setInteractions [getUser] demoPact)
    ∧ (∀ g, g ≠ 0 -> heap s' !! g = heap fetched !! g)
    ∧ world s' = world fetched ∧ trace s' = trace fetched
    ∧ ("get user" = "" -> "" = "" -> s' = fetched).
Proof.
  exact (selection_overwrites_document 0 "get user" "" fetched demoPact eq_refl).
Defined.

(** ** Where the code departs from the written claims *)


(** C9 as written fails: the reader produced a document with two
    interactions; after a run filtered by description, that same document
    holds one interaction only. *)
Lemma selection_mutates_the_document :
  demoRead (NewPactFileReader "pacts/web-users.json") []
  = (inl demoPact, ["read pacts/web-users.json"])
  ∧ ∃ s3, VerifyState demoIsWebUri demoRead demoPactFileValidate
            demoVerifier "get user" "" start = Some (None, s3)
          ∧ heap fetched !! 0 = Some demoPact
          ∧ heap s3 !! 0 = Some (setInteractions [getUser] demoPact)
          ∧ Interactions <$> (heap s3 !! 0)
            ≠ Interactions <$> (heap fetched !! 0).
Proof.
  split; [reflexivity|]. eexists. split; [reflexivity|].
  split; [reflexivity|]. split; [reflexivity|].
  vm_compute. discriminate.
Qed.

(** ** The further properties at the concrete test *)




Lemma validator_receives_selection_witness :
  ∃ s3, VerifyState demoIsWebUri demoRead demoPactFileValidate
          demoVerifier "get user" "" start = Some (None, s3)
        ∧ trace s3
          = trace fetched
            ++ [EvValidate 0 (setInteractions [getUser] demoPact)
                  (stateActions demoVerifier)]
        ∧ world s3 = ["read pacts/web-users.json"; "validated"]
        ∧ heap s3 = [setInteractions [getUser] demoPact].
Proof.
  apply (validator_receives_selection demoIsWebUri demoRead
           demoPactFileValidate demoVerifier "get user" "" start checked
           fetched 0 demoPact eq_refl eq_refl eq_refl).
  right. discriminate.
Defined.

Lemma success_means_everything_passed_witness :
  consumer demoVerifier ≠ "" ∧ provider demoVerifier ≠ ""
  ∧ ∃ w r d w1 w2,
      CanValidate (validator demoVerifier) (world start) = (None, w)
      ∧ readerOf demoIsWebUri demoVerifier = Some r
      ∧ demoRead r w = (inl d, w1)
      ∧ demoPactFileValidate d = None
      ∧ ("get user" ≠ "" ∨ "" ≠ "" ->
         filter (selected "get user" "") (Interactions d) ≠ [])
      ∧ Validate (validator demoVerifier)
          (setInteractions (filter (selected "get user" "") (Interactions d)) d)
          (stateActions demoVerifier) w1
        = ((true, None), w2)
      ∧ ["read pacts/web-users.json"; "validated"] = w2.
Proof.
  exact (success_means_everything_passed demoIsWebUri demoRead
           demoPactFileValidate demoVerifier "get user" "" start
           (mkRunState ["read pacts/web-users.json"; "validated"]
              [setInteractions [getUser] demoPact]
              (trace fetched
               ++ [EvValidate 0 (setInteractions [getUser] demoPact)
                     (stateActions demoVerifier)]))
           eq_refl).
Defined.


